(** * DruidCheckOperator: a shallow embedding of
      [airflow/providers/apache/druid/operators/druid_check.py]

    The operator runs one SQL statement against a Druid broker, fetches the
    first row and raises [AirflowException] when the fetched record is falsy.
    Python values are a tagged variant, exceptions and the mutable
    surroundings (the operator object, the sessions held open, the trace of
    calls and log lines) are threaded through a small state-and-exception
    monad whose final state survives a raised exception. *)

From Stdlib Require Import ZArith String List Bool Lia.
From Stdlib Require Import Floats.SpecFloat.
Import ListNotations.
Local Open Scope string_scope.
Local Open Scope list_scope.
Set Warnings "-register-all".

(** ** Python values and [bool()] casting *)

Inductive pyvalue : Type :=
| PNone
| PBool (b : bool)
| PInt (z : Z)
| PFloat (f : spec_float)
| PStr (s : string)
| PList (items : list pyvalue)
| PTuple (items : list pyvalue)
| PDict (entries : list (pyvalue * pyvalue))
| PSet (items : list pyvalue).

Definition is_nil {A : Type} (l : list A) : bool :=
  match l with
  | [] => true
  | _ :: _ => false
  end.

(** [bool(v)]: [None], [False], a numeric zero and every empty container
    are false, everything else is true. *)
Definition py_bool (v : pyvalue) : bool :=
  match v with
  | PNone => false
  | PBool b => b
  | PInt z => negb (Z.eqb z 0)
  | PFloat (S754_zero _) => false
  | PFloat _ => true
  | PStr EmptyString => false
  | PStr (String _ _) => true
  | PList items => negb (is_nil items)
  | PTuple items => negb (is_nil items)
  | PDict entries => negb (is_nil entries)
  | PSet items => negb (is_nil items)
  end.

(** [not v] *)
Definition py_not (v : pyvalue) : bool := negb (py_bool v).

(** A result row is a tuple of values; [fetchone] hands back a row or
    [None]. *)
Definition row : Type := list pyvalue.
Definition record : Type := option row.

Definition record_value (r : record) : pyvalue :=
  match r with
  | None => PNone
  | Some vs => PTuple vs
  end.

(** The execution context: [Optional[Dict[Any, Any]]]. *)
Definition context : Type := option (list (pyvalue * pyvalue)).

(** ** Exceptions and outcomes *)

Inductive exn : Type :=
| AirflowException (msg : string)
| ForeignError (cls : string) (msg : string).

Inductive outcome (A : Type) : Type :=
| Return (a : A)
| Raise (e : exn).
Arguments Return {A} a.
Arguments Raise {A} e.

(** ** The operator object and the observable surroundings *)

Record DruidCheckOperator : Type := mkOperator {
  sql : string;
  druid_broker_conn_id : string
}.

Inductive log_arg : Type :=
| NoArg
| StrArg (s : string)
| RecordArg (r : record).

Inductive event : Type :=
| EvLog (fmt : string) (arg : log_arg)
| EvOpen (conn_id : string)
| EvExecute (conn_id : string) (stmt : string)
| EvFetch (conn_id : string)
| EvClose (conn_id : string).

Record state : Type := mkState {
  self_ : DruidCheckOperator;
  open_conns : list string;
  events : list event
}.

(** ** The state-and-exception monad *)

Definition M (A : Type) : Type := state -> outcome A * state.

Definition ret {A : Type} (a : A) : M A := fun st => (Return a, st).

Definition raise {A : Type} (e : exn) : M A := fun st => (Raise e, st).

Definition bind {A B : Type} (m : M A) (k : A -> M B) : M B :=
  fun st =>
    match m st with
    | (Return a, st') => k a st'
    | (Raise e, st') => (Raise e, st')
    end.

Declare Scope py_scope.
Delimit Scope py_scope with py.
Notation "x <- m ;; k" := (bind m (fun x => k))
  (at level 61, m at next level, right associativity) : py_scope.
Notation "m ;; k" := (bind m (fun _ => k))
  (at level 61, right associativity) : py_scope.
Local Open Scope py_scope.

Definition get_self : M DruidCheckOperator := fun st => (Return (self_ st), st).

Definition emit (ev : event) : M unit :=
  fun st => (Return tt, mkState (self_ st) (open_conns st) (events st ++ [ev])).

(** [self.log.info(fmt, arg)] *)
Definition log_info (fmt : string) (arg : log_arg) : M unit := emit (EvLog fmt arg).

(** ** The Druid broker behind the DB-API hook *)

(** What a statement produces: a generator of rows that may stop, yield a
    row, or fail while the next row is being read. *)
Inductive result_stream : Type :=
| Done
| Row (r : row) (rest : result_stream)
| Fault (e : exn).

(** The broker as the operator sees it: whether a connection id resolves
    ([None]) or fails with an error, and what a statement sent over a
    connection answers. *)
Record Broker : Type := mkBroker {
  resolve : string -> option exn;
  answer : string -> string -> outcome result_stream
}.

Record DruidDbApiHook : Type := mkHook { hook_conn_id : string }.
Record Connection : Type := mkConnection { conn_of : string }.
Record Cursor : Type := mkCursor {
  cur_conn : string;
  cur_results : option result_stream
}.

Fixpoint remove_first (c : string) (l : list string) : list string :=
  match l with
  | [] => []
  | x :: xs => if String.eqb c x then xs else x :: remove_first c xs
  end.

Section Operator.

Variable broker : Broker.

(** Modelled from the spec: [DruidDbApiHook.get_conn] is the Connection
    Provider's [resolve(connectionId) -> Session]; it fails with a
    connectivity error or opens a session on the broker. *)
Definition get_conn (h : DruidDbApiHook) : M Connection :=
  fun st =>
    match resolve broker (hook_conn_id h) with
    | Some e => (Raise e, st)
    | None =>
        (Return (mkConnection (hook_conn_id h)),
         mkState (self_ st) (hook_conn_id h :: open_conns st)
                 (events st ++ [EvOpen (hook_conn_id h)]))
    end.

(** Modelled from the spec: entering the session scope hands out a fresh
    cursor on the session. *)
Definition conn_enter (c : Connection) : M Cursor :=
  ret (mkCursor (conn_of c) None).

(** Modelled from the spec: leaving the session scope is the session's
    [close()]; it releases the session and returns nothing, so an exception
    in flight is never suppressed. *)
Definition conn_exit (c : Connection) : M unit :=
  fun st =>
    (Return tt,
     mkState (self_ st) (remove_first (conn_of c) (open_conns st))
             (events st ++ [EvClose (conn_of c)])).

(** Modelled from the spec: [cursor.execute], the sending half of the
    session's [executeQuery(sql) -> ResultRow]; it sends the statement and
    keeps the result stream, or fails with the engine's error. *)
Definition cur_execute (stmt : string) (cur : Cursor) : M Cursor :=
  emit (EvExecute (cur_conn cur) stmt) ;;
  match answer broker (cur_conn cur) stmt with
  | Raise e => raise e
  | Return rs => ret (mkCursor (cur_conn cur) (Some rs))
  end.

(** Modelled from the spec: [cursor.fetchone], the read half of
    [executeQuery(sql) -> ResultRow]; a cursor that was never given a
    statement has nothing to read and fails. *)
Definition fetchone (cur : Cursor) : M (record * Cursor) :=
  emit (EvFetch (cur_conn cur)) ;;
  match cur_results cur with
  | None => raise (ForeignError "Error" "Called before `execute`")
  | Some Done => ret (None, cur)
  | Some (Row r rest) => ret (Some r, mkCursor (cur_conn cur) (Some rest))
  | Some (Fault e) => raise e
  end.

(** [with mgr as cur: body]: the body's outcome is kept, the exit handler
    runs on the normal and on the exceptional path alike. *)
Definition with_conn {A : Type} (c : Connection) (body : Cursor -> M A) : M A :=
  fun st =>
    match conn_enter c st with
    | (Raise e, st1) => (Raise e, st1)
    | (Return cur, st1) =>
        match body cur st1 with
        | (r, st2) =>
            match conn_exit c st2 with
            | (Raise e, st3) => (Raise e, st3)
            | (Return _, st3) => (r, st3)
            end
        end
    end.

(** ** The operator's methods *)

(** [__init__(self, sql, druid_broker_conn_id='druid_broker_default')] *)
Definition init (sql0 : string) (conn_id : option string) : DruidCheckOperator :=
  mkOperator sql0
    (match conn_id with
     | Some c => c
     | None => "druid_broker_default"
     end).

Definition get_db_hook : M DruidDbApiHook :=
  self <- get_self ;;
  ret (mkHook (druid_broker_conn_id self)).

Definition get_first (stmt : string) : M record :=
  hook <- get_db_hook ;;
  conn <- get_conn hook ;;
  with_conn conn (fun cur =>
    cur' <- cur_execute stmt cur ;;
    fetched <- fetchone cur' ;;
    ret (fst fetched)).

Definition execute (ctx : context) : M unit :=
  self <- get_self ;;
  log_info "Executing SQL check: %s" (StrArg (sql self)) ;;
  self' <- get_self ;;
  rec <- get_first (sql self') ;;
  log_info "Record: %s" (RecordArg rec) ;;
  if py_not (record_value rec)
  then raise (AirflowException "The query returned None")
  else log_info "Success." NoArg.

End Operator.

(** ** Derived notions used by the statements *)

(** The outcome of fetching the operator's own statement in a state. *)
Definition fetched (b : Broker) (st : state) : outcome record :=
  fst (get_first b (sql (self_ st)) st).

(** The check applied to a fetched record, lines 91 to 93 of the source. *)
Definition verdict (r : record) : outcome unit :=
  if py_not (record_value r)
  then Raise (AirflowException "The query returned None")
  else Return tt.

(** What one engine round trip answers for the first read of a stream. *)
Definition first_read (rs : result_stream) : outcome record :=
  match rs with
  | Done => Return None
  | Row r _ => Return (Some r)
  | Fault e => Raise e
  end.

(** Sessions still held after a trace of calls, starting from [acc]. *)
Fixpoint held (tr : list event) (acc : list string) : list string :=
  match tr with
  | [] => acc
  | EvOpen c :: tr' => held tr' (c :: acc)
  | EvClose c :: tr' => held tr' (remove_first c acc)
  | _ :: tr' => held tr' acc
  end.

(** A task run several times, each run against its own broker and context;
    the state left by one run is the one the next run starts from. *)
Fixpoint executions (runs : list (Broker * context)) (st : state) : state :=
  match runs with
  | [] => st
  | (b, ctx) :: runs' => executions runs' (snd (execute b ctx st))
  end.

(** ** Concrete brokers for the scenarios *)

Definition unknown_statement : exn :=
  ForeignError "ProgrammingError" "Unknown statement".

(** A broker that knows one statement and answers it with [rs]. *)
Definition broker_answering (stmt : string) (rs : result_stream) : Broker :=
  mkBroker (fun _ => None)
    (fun _ q => if String.eqb q stmt then Return rs else Raise unknown_statement).

(** A broker on which every statement fails with [e]. *)
Definition broker_failing (e : exn) : Broker :=
  mkBroker (fun _ => None) (fun _ _ => Raise e).

Definition count_query : string := "SELECT COUNT(*) FROM foo".

(** The state of a freshly built task: no session held, nothing logged. *)
Definition fresh (op : DruidCheckOperator) : state := mkState op [] [].

Definition count_task : state := fresh (init count_query None).

(** One value of each class the docstring lists as false under [bool()]. *)
Definition falsy_samples : list pyvalue :=
  [PBool false; PInt 0; PFloat (S754_zero false); PStr ""; PList [];
   PTuple []; PDict []; PSet []].

(** A row of values that are all true under [bool()]. *)
Definition truthy_row : row :=
  [PBool true; PInt 1; PInt (-1); PStr "0"; PStr " "; PStr "a";
   PList [PInt 1]; PDict [(PStr "k", PInt 1)]].

Definition run_context : context := Some [(PStr "ds", PStr "2020-01-01")].

Definition malformed_sql : exn :=
  ForeignError "ProgrammingError" "Unknown exception: malformed SQL".

Definition two_rows : result_stream :=
  Row [PInt 1; PStr "a"] (Row [PInt 2; PStr "b"] Done).

(** ** Readings of a trace *)

(** The statements a trace sent to the broker, with the connection each went
    over, in order. *)
Fixpoint statements_sent (tr : list event) : list (string * string) :=
  match tr with
  | [] => []
  | EvExecute c q :: tr' => (c, q) :: statements_sent tr'
  | _ :: tr' => statements_sent tr'
  end.

(** The log lines of a trace, in order. *)
Fixpoint log_lines (tr : list event) : list (string * log_arg) :=
  match tr with
  | [] => []
  | EvLog fmt arg :: tr' => (fmt, arg) :: log_lines tr'
  | _ :: tr' => log_lines tr'
  end.

(** The lines [execute] logs after a record has come back. *)
Definition closing_lines (r : record) : list event :=
  EvLog "Record: %s" (RecordArg r) ::
  (if py_not (record_value r) then [] else [EvLog "Success." NoArg]).

(** A broker on which no connection id resolves. *)
Definition broker_unreachable (e : exn) : Broker :=
  mkBroker (fun _ => Some e) (fun _ _ => Return Done).

Definition conn_not_found : exn :=
  AirflowException "The conn_id `druid_broker_default` isn't defined".

(** ** How the methods run *)

(** Case split on membership in an explicit trace. *)
Ltac split_in :=
  repeat match goal with
         | H : In _ _ |- _ => simpl in H
         | H : _ \/ _ |- _ => destruct H
         | H : False |- _ => destruct H
         end.

Lemma remove_first_head (c : string) (l : list string) :
  remove_first c (c :: l) = l.
Proof. simpl. now rewrite String.eqb_refl. Qed.

(** [get_first] unfolded along its three ways out: the connection id does not
    resolve, the statement is rejected, or the first read of the stream
    decides. *)
Lemma get_first_run (b : Broker) (stmt : string) (st : state) :
  get_first b stmt st =
  let c := druid_broker_conn_id (self_ st) in
  match resolve b c with
  | Some e => (Raise e, st)
  | None =>
      match answer b c stmt with
      | Raise e =>
          (Raise e,
           mkState (self_ st) (open_conns st)
                   (events st ++ [EvOpen c; EvExecute c stmt; EvClose c]))
      | Return rs =>
          (first_read rs,
           mkState (self_ st) (open_conns st)
                   (events st ++ [EvOpen c; EvExecute c stmt; EvFetch c; EvClose c]))
      end
  end.
Proof.
  unfold get_first, get_db_hook, get_conn, with_conn, conn_enter, conn_exit,
    cur_execute, fetchone, bind, ret, raise, emit, get_self.
  cbn [hook_conn_id].
  destruct (resolve b (druid_broker_conn_id (self_ st))) as [e|]; [reflexivity|].
  cbn [conn_of cur_conn].
  destruct (answer b (druid_broker_conn_id (self_ st)) stmt) as [rs|e].
  - cbn [cur_conn cur_results].
    destruct rs as [|r rest|e];
      cbn [self_ open_conns events fst first_read];
      rewrite remove_first_head, <- !app_assoc; reflexivity.
  - cbn [self_ open_conns events].
    rewrite remove_first_head, <- !app_assoc; reflexivity.
Qed.

(** Fetching looks at the operator object only, never at the trace or at the
    sessions already held. *)
Lemma get_first_outcome (b : Broker) (stmt : string) (st : state) :
  fst (get_first b stmt st) =
  match resolve b (druid_broker_conn_id (self_ st)) with
  | Some e => Raise e
  | None =>
      match answer b (druid_broker_conn_id (self_ st)) stmt with
      | Raise e => Raise e
      | Return rs => first_read rs
      end
  end.
Proof.
  rewrite get_first_run. cbv zeta.
  destruct (resolve b _); [reflexivity|].
  destruct (answer b _ stmt); reflexivity.
Qed.

(** [execute] is the fetch followed by the check on the fetched record. *)
Lemma execute_outcome (b : Broker) (ctx : context) (st : state) :
  fst (execute b ctx st) =
  match fetched b st with
  | Raise e => Raise e
  | Return r => verdict r
  end.
Proof.
  unfold fetched. rewrite get_first_outcome.
  unfold execute, bind, get_self, log_info, emit, raise.
  cbn [self_ open_conns events].
  rewrite get_first_run. cbv zeta. cbn [self_ open_conns events].
  destruct (resolve b _); [reflexivity|].
  destruct (answer b _ _) as [rs|e]; [|reflexivity].
  destruct (first_read rs) as [r|e]; [|reflexivity].
  unfold verdict. destruct (py_not (record_value r)); reflexivity.
Qed.

Lemma execute_self (b : Broker) (ctx : context) (st : state) :
  self_ (snd (execute b ctx st)) = self_ st.
Proof.
  unfold execute, bind, get_self, log_info, emit, raise.
  cbn [self_ open_conns events].
  rewrite get_first_run. cbv zeta. cbn [self_ open_conns events].
  destruct (resolve b _); [reflexivity|].
  destruct (answer b _ _) as [rs|e]; [|reflexivity].
  destruct (first_read rs) as [r|e]; [|reflexivity].
  destruct (py_not (record_value r)); reflexivity.
Qed.

(** The context is never read. *)
Lemma execute_ignores_context (b : Broker) (ctx1 ctx2 : context) (st : state) :
  execute b ctx1 st = execute b ctx2 st.
Proof. reflexivity. Qed.

Lemma verdict_nonempty (v : pyvalue) (vs : row) :
  verdict (Some (v :: vs)) = Return tt.
Proof. reflexivity. Qed.

Lemma verdict_raises (r : record) :
  verdict r = Raise (AirflowException "The query returned None") <->
  r = None \/ r = Some [].
Proof.
  destruct r as [[|v vs]|]; cbn; split; intros H; auto; try discriminate.
  destruct H; discriminate.
Qed.

Lemma executions_self (runs : list (Broker * context)) (st : state) :
  self_ (executions runs st) = self_ st.
Proof.
  revert st. induction runs as [|[b ctx] runs IH]; intros st; simpl.
  - reflexivity.
  - rewrite IH. apply execute_self.
Qed.

(** ** The check on the fetched record *)

(** C1, as the code runs it: for each class of false value (False, 0, 0.0,
    the empty string, the empty list, tuple, dict and set), the count query
    answered by the single-value row holding that value makes [execute]
    return normally; no exception is raised for a false value in a row. *)
Theorem execute_passes_on_falsy_values :
  Forall (fun v =>
            py_bool v = false /\
            fst (execute (broker_answering count_query (Row [v] Done))
                         None count_task) = Return tt)
         falsy_samples.
Proof. repeat constructor. Qed.

(** C2, as the code runs it: for "SELECT COUNT( * ) FROM foo" the row [0]
    and the row [5] both make [execute] return normally. *)
Theorem count_scenario_outcomes :
  fst (execute (broker_answering count_query (Row [PInt 0] Done))
               None count_task) = Return tt /\
  fst (execute (broker_answering count_query (Row [PInt 5] Done))
               None count_task) = Return tt.
Proof. split; reflexivity. Qed.

(** C3: whenever the fetched record is a row (a sequence of at least one
    value) whose values are all true under [bool()], [execute] returns
    normally, with no value. *)
Theorem execute_passes_on_truthy_row
  (b : Broker) (ctx : context) (st : state) (v : pyvalue) (vs : row) :
  fetched b st = Return (Some (v :: vs)) ->
  forallb py_bool (v :: vs) = true ->
  fst (execute b ctx st) = Return tt.
Proof.
  intros Hrow _. rewrite execute_outcome, Hrow. apply verdict_nonempty.
Qed.

Lemma execute_passes_on_truthy_row_witness :
  fetched (broker_answering count_query (Row truthy_row Done)) count_task
    = Return (Some truthy_row) /\
  forallb py_bool truthy_row = true /\
  fst (execute (broker_answering count_query (Row truthy_row Done))
               run_context count_task) = Return tt.
Proof.
  split; [reflexivity|]. split; [reflexivity|].
  apply (execute_passes_on_truthy_row
           (broker_answering count_query (Row truthy_row Done))
           run_context count_task (PBool true) (tl truthy_row));
    reflexivity.
Defined.

(** C4: when the connection resolves and the statement answers an empty
    result set, [execute] raises [AirflowException] with the message
    "The query returned None". *)
Theorem execute_fails_on_empty_result
  (b : Broker) (ctx : context) (st : state) :
  resolve b (druid_broker_conn_id (self_ st)) = None ->
  answer b (druid_broker_conn_id (self_ st)) (sql (self_ st)) = Return Done ->
  fst (execute b ctx st) = Raise (AirflowException "The query returned None").
Proof.
  intros Hres Hans. rewrite execute_outcome. unfold fetched.
  rewrite get_first_outcome, Hres, Hans. reflexivity.
Qed.

Lemma execute_fails_on_empty_result_witness :
  fst (execute (broker_answering count_query Done) None count_task)
    = Raise (AirflowException "The query returned None").
Proof.
  apply (execute_fails_on_empty_result
           (broker_answering count_query Done) None count_task);
    reflexivity.
Defined.

(** C5: once a record has been fetched, [execute] raises
    [AirflowException "The query returned None"] exactly when the record is
    [None] or the empty sequence, raises nothing else, and returns normally
    on every non-empty row whatever its values. *)
Theorem execute_fails_iff_record_empty
  (b : Broker) (ctx : context) (st : state) (r : record) :
  fetched b st = Return r ->
  (fst (execute b ctx st) = Raise (AirflowException "The query returned None")
   <-> r = None \/ r = Some []) /\
  (forall e, fst (execute b ctx st) = Raise e ->
             e = AirflowException "The query returned None") /\
  (forall v vs, r = Some (v :: vs) -> fst (execute b ctx st) = Return tt).
Proof.
  intros Hrec. rewrite execute_outcome, Hrec. split; [|split].
  - apply verdict_raises.
  - intros e. destruct r as [[|v vs]|]; cbn; intros H;
      try discriminate; now inversion H.
  - intros v vs ->. apply verdict_nonempty.
Qed.

Lemma execute_fails_iff_record_empty_witness :
  fetched (broker_answering count_query Done) count_task = Return None /\
  fst (execute (broker_answering count_query Done) run_context count_task)
    = Raise (AirflowException "The query returned None").
Proof.
  split; [reflexivity|].
  apply (execute_fails_iff_record_empty
           (broker_answering count_query Done) run_context count_task None);
    [reflexivity|].
  left; reflexivity.
Defined.

(** ** Errors of the engine *)

(** C6: when the connection resolves and the engine fails the statement with
    an error [e], either on sending it or on reading its first row,
    [execute] raises that same [e]: it is neither swallowed nor replaced by
    the check's own exception. *)
Theorem engine_error_propagates
  (b : Broker) (ctx : context) (st : state) (e : exn) :
  resolve b (druid_broker_conn_id (self_ st)) = None ->
  answer b (druid_broker_conn_id (self_ st)) (sql (self_ st)) = Raise e \/
  answer b (druid_broker_conn_id (self_ st)) (sql (self_ st)) = Return (Fault e) ->
  fst (execute b ctx st) = Raise e.
Proof.
  intros Hres Hans. rewrite execute_outcome. unfold fetched.
  rewrite get_first_outcome, Hres.
  destruct Hans as [-> | ->]; reflexivity.
Qed.

Lemma engine_error_propagates_witness :
  fst (execute (broker_failing malformed_sql) None count_task)
    = Raise malformed_sql /\
  fst (execute (broker_answering count_query (Fault malformed_sql))
               None count_task)
    = Raise malformed_sql.
Proof.
  split.
  - apply (engine_error_propagates
             (broker_failing malformed_sql) None count_task malformed_sql);
      [reflexivity | left; reflexivity].
  - apply (engine_error_propagates
             (broker_answering count_query (Fault malformed_sql))
             None count_task malformed_sql);
      [reflexivity | right; reflexivity].
Defined.

(** ** The session scope of [get_first] *)

(** C7: whatever the broker does (the id does not resolve, the statement is
    rejected, the read fails, or a record comes back), [get_first] leaves
    exactly the sessions held that were held before it, and every session
    opened in the calls it made is closed again within those calls. *)
Theorem get_first_releases_session
  (b : Broker) (stmt : string) (st : state) :
  open_conns (snd (get_first b stmt st)) = open_conns st /\
  exists tr,
    events (snd (get_first b stmt st)) = events st ++ tr /\
    held tr [] = [].
Proof.
  rewrite get_first_run. cbv zeta.
  destruct (resolve b _) as [e|].
  - split; [reflexivity|]. exists []. now rewrite app_nil_r.
  - destruct (answer b _ stmt) as [rs|e]; cbn [snd open_conns events].
    + split; [reflexivity|]. eexists. split; [reflexivity|].
      cbn. now rewrite String.eqb_refl.
    + split; [reflexivity|]. eexists. split; [reflexivity|].
      cbn. now rewrite String.eqb_refl.
Qed.

(** C8: when the connection resolves and the statement answers a result set
    whose first row is [r], [get_first] sends exactly that statement once,
    reads once, and returns [r], whatever rows follow it. *)
Theorem get_first_returns_first_row
  (b : Broker) (stmt : string) (st : state) (r : row) (rest : result_stream) :
  resolve b (druid_broker_conn_id (self_ st)) = None ->
  answer b (druid_broker_conn_id (self_ st)) stmt = Return (Row r rest) ->
  fst (get_first b stmt st) = Return (Some r) /\
  events (snd (get_first b stmt st)) =
    events st ++
    [EvOpen (druid_broker_conn_id (self_ st));
     EvExecute (druid_broker_conn_id (self_ st)) stmt;
     EvFetch (druid_broker_conn_id (self_ st));
     EvClose (druid_broker_conn_id (self_ st))].
Proof.
  intros Hres Hans. rewrite get_first_run. cbv zeta.
  rewrite Hres, Hans. split; reflexivity.
Qed.

Lemma get_first_returns_first_row_witness :
  fst (get_first (broker_answering "SELECT a, b FROM t" two_rows)
                 "SELECT a, b FROM t" count_task)
    = Return (Some [PInt 1; PStr "a"]) /\
  events (snd (get_first (broker_answering "SELECT a, b FROM t" two_rows)
                         "SELECT a, b FROM t" count_task)) =
    [EvOpen "druid_broker_default";
     EvExecute "druid_broker_default" "SELECT a, b FROM t";
     EvFetch "druid_broker_default";
     EvClose "druid_broker_default"].
Proof.
  apply (get_first_returns_first_row
           (broker_answering "SELECT a, b FROM t" two_rows)
           "SELECT a, b FROM t" count_task
           [PInt 1; PStr "a"] (Row [PInt 2; PStr "b"] Done));
    reflexivity.
Defined.

(** ** Frame and independence *)

(** C9: an operator built by [init] keeps its [sql] and its
    [druid_broker_conn_id] through any number of calls of [execute], against
    any brokers and with any contexts, whether the calls pass or fail. *)
Theorem execute_preserves_configuration
  (runs : list (Broker * context)) (s : string) (c : option string)
  (held_before : list string) (trace_before : list event) :
  let st' := executions runs (mkState (init s c) held_before trace_before) in
  sql (self_ st') = s /\
  druid_broker_conn_id (self_ st') =
    match c with
    | Some id => id
    | None => "druid_broker_default"
    end.
Proof.
  cbv zeta. rewrite executions_self. split; reflexivity.
Qed.

(** C10: two runs of [execute] that fetch the same record end the same way,
    whatever their contexts, brokers and states; and on one broker and one
    state, changing the context changes nothing at all. *)
Theorem execute_outcome_independent_of_context
  (b1 b2 : Broker) (ctx1 ctx2 : context) (st1 st2 : state) (r : record) :
  fetched b1 st1 = Return r ->
  fetched b2 st2 = Return r ->
  fst (execute b1 ctx1 st1) = fst (execute b2 ctx2 st2) /\
  execute b1 ctx1 st1 = execute b1 ctx2 st1.
Proof.
  intros H1 H2. split.
  - now rewrite !execute_outcome, H1, H2.
  - apply execute_ignores_context.
Qed.

Lemma execute_outcome_independent_of_context_witness :
  fst (execute (broker_answering count_query (Row [PInt 5] Done))
               None count_task) =
  fst (execute (broker_answering count_query (Row [PInt 5] two_rows))
               run_context
               (mkState (init count_query (Some "druid_prod")) ["other"] [])) /\
  execute (broker_answering count_query (Row [PInt 5] Done)) None count_task =
  execute (broker_answering count_query (Row [PInt 5] Done)) run_context
          count_task.
Proof.
  apply (execute_outcome_independent_of_context
           (broker_answering count_query (Row [PInt 5] Done))
           (broker_answering count_query (Row [PInt 5] two_rows))
           None run_context count_task
           (mkState (init count_query (Some "druid_prod")) ["other"] [])
           (Some [PInt 5]));
    reflexivity.
Defined.

(** ** The whole run of [execute] *)

(** [execute] unfolded along its four ways out, with the calls and log lines
    each of them leaves behind. *)
Lemma execute_run (b : Broker) (ctx : context) (st : state) :
  execute b ctx st =
  let c := druid_broker_conn_id (self_ st) in
  let q := sql (self_ st) in
  let line := EvLog "Executing SQL check: %s" (StrArg q) in
  match resolve b c with
  | Some e =>
      (Raise e, mkState (self_ st) (open_conns st) (events st ++ [line]))
  | None =>
      match answer b c q with
      | Raise e =>
          (Raise e,
           mkState (self_ st) (open_conns st)
                   (events st ++ [line; EvOpen c; EvExecute c q; EvClose c]))
      | Return rs =>
          match first_read rs with
          | Raise e =>
              (Raise e,
               mkState (self_ st) (open_conns st)
                       (events st ++
                        [line; EvOpen c; EvExecute c q; EvFetch c; EvClose c]))
          | Return r =>
              (verdict r,
               mkState (self_ st) (open_conns st)
                       (events st ++
                        [line; EvOpen c; EvExecute c q; EvFetch c; EvClose c]
                        ++ closing_lines r))
          end
      end
  end.
Proof.
  unfold execute, bind, get_self, log_info, emit, raise.
  cbn [self_ open_conns events].
  rewrite get_first_run. cbv zeta. cbn [self_ open_conns events].
  destruct (resolve b _) as [e|]; [reflexivity|].
  destruct (answer b _ _) as [rs|e].
  - destruct (first_read rs) as [r|e].
    + unfold verdict, closing_lines.
      destruct (py_not (record_value r));
        cbn [self_ open_conns events]; rewrite <- !app_assoc; reflexivity.
    + rewrite <- !app_assoc; reflexivity.
  - rewrite <- !app_assoc; reflexivity.
Qed.


Lemma execute_open_conns (b : Broker) (ctx : context) (st : state) :
  open_conns (snd (execute b ctx st)) = open_conns st.
Proof.
  rewrite execute_run. cbv zeta.
  destruct (resolve b _); [reflexivity|].
  destruct (answer b _ _) as [rs|e]; [|reflexivity].
  destruct (first_read rs); reflexivity.
Qed.

(** X1: when the connection id does not resolve, [execute] raises the
    resolution error itself; by then it has logged the statement and nothing
    more, no session was opened and no statement was sent. *)
Theorem unresolved_connection_propagates
  (b : Broker) (ctx : context) (st : state) (e : exn) :
  resolve b (druid_broker_conn_id (self_ st)) = Some e ->
  fst (execute b ctx st) = Raise e /\
  open_conns (snd (execute b ctx st)) = open_conns st /\
  events (snd (execute b ctx st)) =
    events st ++ [EvLog "Executing SQL check: %s" (StrArg (sql (self_ st)))].
Proof.
  intros Hres. rewrite execute_run. cbv zeta. rewrite Hres.
  repeat split.
Qed.

Lemma unresolved_connection_propagates_witness :
  fst (execute (broker_unreachable conn_not_found) None count_task)
    = Raise conn_not_found /\
  open_conns (snd (execute (broker_unreachable conn_not_found) None count_task))
    = [] /\
  events (snd (execute (broker_unreachable conn_not_found) None count_task))
    = [EvLog "Executing SQL check: %s" (StrArg count_query)].
Proof.
  apply (unresolved_connection_propagates
           (broker_unreachable conn_not_found) None count_task conn_not_found).
  reflexivity.
Defined.

(** X2: when a record [r] comes back, [execute] has, in this order, logged
    the statement, opened the session, sent the statement, read once, closed
    the session, logged the record, and logged "Success." only if [r] is a
    non-empty row; the session is closed before the record is checked. *)
Theorem execute_trace_on_record
  (b : Broker) (ctx : context) (st : state) (r : record) :
  fetched b st = Return r ->
  events (snd (execute b ctx st)) =
    events st ++
    [EvLog "Executing SQL check: %s" (StrArg (sql (self_ st)));
     EvOpen (druid_broker_conn_id (self_ st));
     EvExecute (druid_broker_conn_id (self_ st)) (sql (self_ st));
     EvFetch (druid_broker_conn_id (self_ st));
     EvClose (druid_broker_conn_id (self_ st));
     EvLog "Record: %s" (RecordArg r)] ++
    match r with
    | Some (_ :: _) => [EvLog "Success." NoArg]
    | _ => []
    end.
Proof.
  unfold fetched. rewrite get_first_outcome, execute_run. cbv zeta.
  destruct (resolve b _) as [e|]; [discriminate|].
  destruct (answer b _ _) as [rs|e]; [|discriminate].
  destruct (first_read rs) as [r0|e]; [|discriminate].
  intros H. injection H as ->.
  destruct r as [[|v vs]|]; reflexivity.
Qed.

Lemma execute_trace_on_record_witness :
  events (snd (execute (broker_answering count_query (Row [PInt 0] Done))
                       None count_task)) =
    [EvLog "Executing SQL check: %s" (StrArg count_query);
     EvOpen "druid_broker_default";
     EvExecute "druid_broker_default" count_query;
     EvFetch "druid_broker_default";
     EvClose "druid_broker_default";
     EvLog "Record: %s" (RecordArg (Some [PInt 0]));
     EvLog "Success." NoArg].
Proof.
  apply (execute_trace_on_record
           (broker_answering count_query (Row [PInt 0] Done)) None count_task
           (Some [PInt 0])).
  reflexivity.
Defined.

(** X3: on every path, the line "Success." is among the lines [execute]
    logged exactly when [execute] returned normally. *)
Theorem success_logged_iff_pass (b : Broker) (ctx : context) (st : state) :
  exists tr,
    events (snd (execute b ctx st)) = events st ++ tr /\
    (In (EvLog "Success." NoArg) tr <-> fst (execute b ctx st) = Return tt).
Proof.
  rewrite execute_run. cbv zeta.
  destruct (resolve b _) as [e|].
  { eexists. split; [reflexivity|]. cbn [fst].
    split; intros H; [split_in|]; discriminate. }
  destruct (answer b _ _) as [rs|e].
  2:{ eexists. split; [reflexivity|]. cbn [fst].
      split; intros H; [split_in|]; discriminate. }
  destruct (first_read rs) as [r|e].
  2:{ eexists. split; [reflexivity|]. cbn [fst].
      split; intros H; [split_in|]; discriminate. }
  eexists. split; [reflexivity|]. cbn [fst].
  unfold closing_lines, verdict.
  destruct (py_not (record_value r)).
  - split; intros H; [split_in|]; discriminate.
  - split; intros H; [reflexivity|]. simpl. tauto.
Qed.

(** X4: on every path of [execute], passing, failing the check or failing in
    the engine, the sessions held afterwards are those held before, and every
    session opened during the call was closed during the call. *)
Theorem execute_releases_session (b : Broker) (ctx : context) (st : state) :
  open_conns (snd (execute b ctx st)) = open_conns st /\
  exists tr,
    events (snd (execute b ctx st)) = events st ++ tr /\
    held tr [] = [].
Proof.
  split; [apply execute_open_conns|].
  rewrite execute_run. cbv zeta.
  destruct (resolve b _) as [e|].
  { eexists. split; reflexivity. }
  destruct (answer b _ _) as [rs|e].
  2:{ eexists. split; [reflexivity|]. cbn. now rewrite String.eqb_refl. }
  destruct (first_read rs) as [r|e].
  2:{ eexists. split; [reflexivity|]. cbn. now rewrite String.eqb_refl. }
  eexists. split; [reflexivity|]. unfold closing_lines. cbn.
  rewrite String.eqb_refl. destruct (py_not (record_value r)); reflexivity.
Qed.

(** X5: [execute] sends nothing when the connection id does not resolve, and
    otherwise exactly one statement, the operator's own [sql], over the
    operator's own [druid_broker_conn_id]. *)
Theorem execute_sends_own_statement_once
  (b : Broker) (ctx : context) (st : state) :
  exists tr,
    events (snd (execute b ctx st)) = events st ++ tr /\
    statements_sent tr =
      match resolve b (druid_broker_conn_id (self_ st)) with
      | Some _ => []
      | None => [(druid_broker_conn_id (self_ st), sql (self_ st))]
      end.
Proof.
  rewrite execute_run. cbv zeta.
  destruct (resolve b _) as [e|].
  { eexists. split; reflexivity. }
  destruct (answer b _ _) as [rs|e].
  2:{ eexists. split; reflexivity. }
  destruct (first_read rs) as [r|e].
  2:{ eexists. split; reflexivity. }
  eexists. split; [reflexivity|]. unfold closing_lines.
  destruct (py_not (record_value r)); reflexivity.
Qed.


(** X7: the line "Record: %s" is logged exactly when [get_first] returned,
    and it carries the record that was fetched; when the connection or the
    engine fails, no record line is written. *)
Theorem record_logged_iff_fetched (b : Broker) (ctx : context) (st : state) :
  exists tr,
    events (snd (execute b ctx st)) = events st ++ tr /\
    forall r, In (EvLog "Record: %s" (RecordArg r)) tr <->
              fetched b st = Return r.
Proof.
  unfold fetched. rewrite get_first_outcome, execute_run. cbv zeta.
  destruct (resolve b _) as [e|].
  { eexists. split; [reflexivity|]. intros r.
    split; intros H; [split_in|]; discriminate. }
  destruct (answer b _ _) as [rs|e].
  2:{ eexists. split; [reflexivity|]. intros r.
      split; intros H; [split_in|]; discriminate. }
  destruct (first_read rs) as [r0|e].
  2:{ eexists. split; [reflexivity|]. intros r.
      split; intros H; [split_in|]; discriminate. }
  eexists. split; [reflexivity|]. intros r. unfold closing_lines.
  split; intros H.
  - destruct (py_not (record_value r0)); split_in; try discriminate;
      injection H as ->; reflexivity.
  - injection H as ->. simpl. tauto.
Qed.

(** X8: [get_first] writes no log line, and the statement it sends is its
    argument, whatever the operator's own [sql] is. *)
Theorem get_first_sends_its_argument
  (b : Broker) (stmt : string) (st : state) :
  exists tr,
    events (snd (get_first b stmt st)) = events st ++ tr /\
    log_lines tr = [] /\
    statements_sent tr =
      match resolve b (druid_broker_conn_id (self_ st)) with
      | Some _ => []
      | None => [(druid_broker_conn_id (self_ st), stmt)]
      end.
Proof.
  rewrite get_first_run. cbv zeta.
  destruct (resolve b _) as [e|].
  { exists []. rewrite app_nil_r. repeat split. }
  destruct (answer b _ stmt) as [rs|e];
    eexists; (split; [reflexivity|]); split; reflexivity.
Qed.

(** X9: a task executed any number of times, against any brokers and with
    any contexts, holds afterwards exactly the sessions it held at the
    start: sessions do not pile up over runs, failed or not. *)
Theorem executions_release_sessions
  (runs : list (Broker * context)) (st : state) :
  open_conns (executions runs st) = open_conns st.
Proof.
  revert st. induction runs as [|[b ctx] runs IH]; intros st; simpl.
  - reflexivity.
  - rewrite IH. apply execute_open_conns.
Qed.

